(** * Verification of the [authselect] Ansible module
    (plugins/modules/authselect.py).

    The module reads the current authselect configuration with
    [authselect current --raw], parses the output with a regular
    expression, and reports it back.  We embed the two functions of the
    module, [get_authselect_state] and [run_module], together with the
    fragment of Python's [re] module they use, and prove the properties of
    the module's specification against that embedding. *)

From Stdlib Require Import ZArith Bool List String Ascii.
Import ListNotations.
Open Scope string_scope.
Open Scope Z_scope.

(* ================================================================== *)
(** ** Characters and strings *)

(** Python [str] values are modelled as Rocq strings; a character is an
    8-bit code point (the Latin-1 range of Unicode). *)

Definition nl : ascii := ascii_of_nat 10.
Definition cr : ascii := ascii_of_nat 13.

(** Python's [\w] on a [str] pattern: [c.isalnum() or c == '_'], here on
    the Latin-1 range. *)
Definition is_word (c : ascii) : bool :=
  let n := nat_of_ascii c in
  (Nat.leb 48 n && Nat.leb n 57)            (* 0-9 *)
  || (Nat.leb 65 n && Nat.leb n 90)         (* A-Z *)
  || (Nat.leb 97 n && Nat.leb n 122)        (* a-z *)
  || Nat.eqb n 95                           (* _ *)
  || Nat.eqb n 170 || Nat.eqb n 178 || Nat.eqb n 179 || Nat.eqb n 181
  || Nat.eqb n 185 || Nat.eqb n 186
  || (Nat.leb 188 n && Nat.leb n 190)
  || (Nat.leb 192 n && Nat.leb n 214)
  || (Nat.leb 216 n && Nat.leb n 246)
  || (Nat.leb 248 n && Nat.leb n 255).

(** [\W]: the complement of [\w]. *)
Definition is_nonword (c : ascii) : bool := negb (is_word c).

(** [.] without [re.DOTALL]: any character but a newline. *)
Definition is_dot (c : ascii) : bool := negb (Ascii.eqb c nl).

(* ================================================================== *)
(** ** The fragment of Python's [re] used by the module *)

Module Re.

(** A backtracking matcher in continuation-passing style, following the
    order in which Python's engine tries alternatives.  A continuation
    receives the text consumed by the current item and the remaining
    input. *)

Section Matcher.
Context {A : Type}.

(** Greedy [cls*]: consume as much as possible first, then give back
    one character at a time. [acc] is the consumed text, reversed. *)
Fixpoint star (cls : ascii -> bool) (acc : list ascii) (s : list ascii)
    (k : list ascii -> list ascii -> option A) : option A :=
  match s with
  | x :: s' =>
      if cls x then
        match star cls (x :: acc) s' k with
        | Some r => Some r
        | None => k (rev acc) s
        end
      else k (rev acc) s
  | [] => k (rev acc) []
  end.

(** Greedy [cls+] = one [cls] followed by [cls*]. *)
Definition plus (cls : ascii -> bool) (s : list ascii)
    (k : list ascii -> list ascii -> option A) : option A :=
  match s with
  | x :: s' => if cls x then star cls [x] s' k else None
  | [] => None
  end.
End Matcher.

(** [$] without [re.MULTILINE]: at the end of the string, or before a
    newline that ends the string. *)
Definition dollar (s : list ascii) : bool :=
  match s with
  | [] => true
  | [c] => Ascii.eqb c nl
  | _ => false
  end.

(** [re.match(r'^(?P<profile>\w+)\W+(?P<features>.STAR)$', s)] (where
    STAR stands for the star of the pattern): [None] when there is no
    match, otherwise the groups [profile] and [features].  [re.match]
    anchors at position 0, so [^] is implied. *)
Definition match_state_line (s : list ascii)
    : option (list ascii * list ascii) :=
  plus is_word s (fun profile r1 =>
    plus is_nonword r1 (fun _ r2 =>
      star is_dot [] r2 (fun features r3 =>
        if dollar r3 then Some (profile, features) else None))).

(** [re.compile(r'\W+').split(s)]: the pieces between the maximal runs
    of non-word characters, including an empty piece before a leading
    run, after a trailing run, and for the empty string. [cur] is the
    current piece, reversed; [in_sep] tells whether the previous
    character belonged to a separator run. *)
Fixpoint split_nonword_aux (cur : list ascii) (in_sep : bool)
    (s : list ascii) : list (list ascii) :=
  match s with
  | [] => [rev cur]
  | x :: s' =>
      if is_word x then split_nonword_aux (x :: cur) false s'
      else if in_sep then split_nonword_aux cur true s'
      else rev cur :: split_nonword_aux [] true s'
  end.

Definition split_nonword (s : list ascii) : list (list ascii) :=
  split_nonword_aux [] false s.

End Re.

(** [str.rstrip("\n\r")]. *)
Definition rstrip_nlcr (s : string) : string :=
  let fix drop (l : list ascii) :=
    match l with
    | c :: l' => if Ascii.eqb c nl || Ascii.eqb c cr then drop l' else l
    | [] => []
    end in
  string_of_list_ascii (rev (drop (rev (list_ascii_of_string s)))).

(* ================================================================== *)
(** ** The host: commands run and the result of [authselect current] *)

(** The part of the host the module touches: what the state query
    [authselect current --raw] answers (exit code, stdout, stderr), and
    the list of commands the module has run so far (argv lists).  The
    module never runs anything that changes the configuration, so the
    answer of the query is a fixed part of the world. *)
Record world := mkWorld {
  query_answer : Z * string * string;
  ran : list (list string)
}.

Definition query_argv : list string :=
  ["/usr/bin/authselect"; "current"; "--raw"].

(** [m.run_command(argv, environ_update=dict(LANG='C'))] for the state
    query: record the command and return the tool's answer. *)
Definition run_command (argv : list string) (w : world)
    : (Z * string * string) * world :=
  (query_answer w, mkWorld (query_answer w) (ran w ++ [argv])).

(* ================================================================== *)
(** ** [get_authselect_state] *)

(** The dict [dict(profile=..., features=..., msg=...)] it returns;
    Python's [None] is [None]. *)
Record state_dict := mkStateDict {
  sd_profile : option string;
  sd_features : option (list string);
  sd_msg : string
}.

(** How a call of [get_authselect_state] ends: it returns a dict, it
    exits through [m.fail_json(rc=..., stderr=..., msg=...)], or it
    raises (the [AttributeError] of [None.group] when the regex does not
    match). *)
Inductive read_result :=
| RDict (d : state_dict)
| RFail (rc : Z) (stderr : string) (msg : string)
| RCrash.

Definition unconfigured_literal : string :=
  "No existing configuration detected." ++ String nl EmptyString.

Definition get_authselect_state (w : world) : read_result * world :=
  let '((rc, std_out, std_err), w1) := run_command query_argv w in
  if (rc =? 2) && String.eqb std_out unconfigured_literal then
    (RDict (mkStateDict None None (rstrip_nlcr std_out)), w1)
  else if (rc =? 2) && String.eqb std_err "" then
    match Re.match_state_line (list_ascii_of_string std_out) with
    | Some (profile, features) =>
        (RDict (mkStateDict
                  (Some (string_of_list_ascii profile))
                  (Some (map string_of_list_ascii (Re.split_nonword features)))
                  "OK"), w1)
    | None => (RCrash, w1)
    end
  else
    (RFail rc std_err
       ("Failed to execute authselect command with '" ++ std_err ++ "'."), w1).

(* ================================================================== *)
(** ** [run_module] *)

(** The module parameters ([profile], [features]) and the check-mode
    flag of the [AnsibleModule]. *)
Record params := mkParams {
  p_profile : string;
  p_features : option (list string);
  check_mode : bool
}.

(** Values stored under [original_profile]: first the string [''], then
    the whole dict returned by [get_authselect_state]. *)
Inductive orig_value :=
| OrigStr (s : string)
| OrigState (d : state_dict).

(** The [result] dict; [requested_profile] is absent until it is set. *)
Record result := mkResult {
  changed : bool;
  original_profile : orig_value;
  features : list string;
  requested_profile : option string
}.

Definition seed_result : result := mkResult false (OrigStr "") [] None.

(** How [run_module] ends: [exit_json] with the result dict,
    [fail_json] with a message and the result dict, the [fail_json] of
    [get_authselect_state], or an uncaught exception. *)
Inductive outcome :=
| Exit (r : result)
| Fail (msg : string) (r : result)
| FailRead (rc : Z) (stderr : string) (msg : string)
| Crash.

Definition run_module (p : params) (w : world) : outcome * world :=
  let result := seed_result in
  if check_mode p then (Exit result, w)
  else
    let '(st, w1) := get_authselect_state w in
    match st with
    | RFail rc err msg => (FailRead rc err msg, w1)
    | RCrash => (Crash, w1)
    | RDict d =>
        let result := mkResult (changed result) (OrigState d)
                        (features result) (Some (p_profile p)) in
        if String.eqb (p_profile p) "fail me" then
          (Fail "You requested this to fail" result, w1)
        else (Exit result, w1)
    end.

(* ================================================================== *)
(** ** The specification's decision rule *)

Module SpecRule.

(** Set equality of two feature lists, ignoring order and repetition. *)
Definition same_set (a b : list string) : bool :=
  forallb (fun x => existsb (String.eqb x) b) a
  && forallb (fun x => existsb (String.eqb x) a) b.

(** The specification's test for whether action is needed (Reconciler,
    step 2), on the snapshot read from the tool: the system is
    unconfigured, or its profile differs from the requested one, or
    features are requested and differ as a set from the active ones.
    It follows the spec's words and is used only to state the premise
    of the reconciliation claims. *)
Definition spec_action_needed (p : params) (before : read_result) : bool :=
  match before with
  | RDict d =>
      match sd_profile d with
      | None => true
      | Some prof =>
          negb (String.eqb prof (p_profile p))
          || match p_features p with
             | None => false
             | Some fs =>
                 negb (same_set fs (match sd_features d with
                                    | Some g => g
                                    | None => []
                                    end))
             end
      end
  | _ => false
  end.

End SpecRule.

(* ================================================================== *)
(** ** Sanity checks on concrete inputs *)

Definition chars (x : string) := list_ascii_of_string x.

Example split_ex1 : Re.split_nonword (chars "a b") = [chars "a"; chars "b"].
Proof. reflexivity. Qed.
Example split_ex2 : Re.split_nonword (chars "") = [chars ""].
Proof. reflexivity. Qed.
Example split_ex3 : Re.split_nonword (chars " a--b ") = [chars ""; chars "a"; chars "b"; chars ""].
Proof. reflexivity. Qed.
Example match_ex1 :
  Re.match_state_line (chars ("sssd with-sudo" ++ String nl EmptyString))
  = Some (chars "sssd", chars "with-sudo").
Proof. reflexivity. Qed.
Example match_ex2 : Re.match_state_line (chars "sssd") = None.
Proof. reflexivity. Qed.
Example match_ex3 :
  Re.match_state_line (chars ("a b" ++ String nl "c")) = None.
Proof. reflexivity. Qed.
Example match_ex4 :
  Re.match_state_line (chars ("a " ++ String nl EmptyString)) = Some (chars "a", chars "").
Proof. reflexivity. Qed.
Example rstrip_ex : rstrip_nlcr unconfigured_literal = "No existing configuration detected.".
Proof. reflexivity. Qed.

(* ================================================================== *)
(** ** Structural lemmas *)

Definition sssd_answer : Z * string * string :=
  (2, "sssd with-sudo" ++ String nl EmptyString, "").

Definition w_sssd : world := mkWorld sssd_answer [].

(** Case analysis on every branch of [run_module]. *)
Ltac branches :=
  repeat match goal with
         | |- context [if ?b then _ else _] => destruct b
         | |- context [match ?m with Some _ => _ | None => _ end] =>
             destruct m as [[? ?]|]
         end.

(** The world after [run_module]: the configuration is untouched, and the
    only command run is the state query, outside check mode. *)
Lemma run_module_world (p : params) (w : world) :
  snd (run_module p w)
  = mkWorld (query_answer w)
      (ran w ++ (if check_mode p then [] else [query_argv])).
Proof.
  destruct w as [[[rc o] e] l]; unfold run_module, get_authselect_state,
    run_command; simpl.
  destruct (check_mode p); simpl; [rewrite app_nil_r; reflexivity|].
  branches; reflexivity.
Qed.

(** The outcome of [run_module] depends on the world only through the
    answer of the state query. *)
Lemma run_module_outcome_answer (p : params) (w w' : world) :
  query_answer w = query_answer w' ->
  fst (run_module p w) = fst (run_module p w').
Proof.
  destruct w as [a l], w' as [a' l']; simpl; intros ->.
  destruct a' as [[rc o] e]; unfold run_module, get_authselect_state,
    run_command; simpl.
  branches; reflexivity.
Qed.

(** Every result dict [run_module] returns or fails with has
    [changed = false]. *)
Lemma run_module_changed_false (p : params) (w : world) :
  match fst (run_module p w) with
  | Exit r | Fail _ r => changed r = false
  | _ => True
  end.
Proof.
  destruct w as [[[rc o] e] l]; unfold run_module, get_authselect_state,
    run_command; simpl.
  branches; simpl; auto.
Qed.

(* ================================================================== *)
(** ** C1: committing outside check mode *)

(** C1 (code bug): on a system configured with profile [sssd] and
    feature [with-sudo], a request for profile [files] outside check mode
    needs action by the spec's rule, yet [run_module] runs only the state
    query and exits with [changed = false]. *)
Lemma C1_no_commit_cex :
  SpecRule.spec_action_needed (mkParams "files" (Some ["with-sudo"]) false)
    (fst (get_authselect_state w_sssd)) = true
  /\ run_module (mkParams "files" (Some ["with-sudo"]) false) w_sssd
     = (Exit (mkResult false
                (OrigState (mkStateDict (Some "sssd") (Some ["with"; "sudo"]) "OK"))
                [] (Some "files")),
        mkWorld sssd_answer [query_argv]).
Proof. split; reflexivity. Qed.

(** [run_module] never invokes a commit operation: outside
    check mode the only external command it runs is the state query (in
    check mode none), the configuration is left as it was, and every
    result dict it returns or fails with has [changed = false]. *)
Theorem C1_run_module_only_queries (p : params) (w : world) :
  snd (run_module p w)
  = mkWorld (query_answer w)
      (ran w ++ (if check_mode p then [] else [query_argv]))
  /\ match fst (run_module p w) with
     | Exit r | Fail _ r => changed r = false
     | _ => True
     end.
Proof. split; [apply run_module_world | apply run_module_changed_false]. Qed.

(* ================================================================== *)
(** ** C2: check mode *)

(** C2 (counterexample): in check mode, on the same system and request as
    above, where action is needed, [run_module] exits with
    [changed = false]. *)
Lemma C2_check_mode_cex :
  SpecRule.spec_action_needed (mkParams "files" (Some ["with-sudo"]) true)
    (fst (get_authselect_state w_sssd)) = true
  /\ run_module (mkParams "files" (Some ["with-sudo"]) true) w_sssd
     = (Exit seed_result, w_sssd)
  /\ changed seed_result = false.
Proof. repeat split. Qed.

(** C2 (amended): in check mode [run_module] runs no external command at
    all (neither the state query nor a commit), leaves the world as it
    is, and exits with the seed result: [changed = false],
    [original_profile = ''] and [features = []]. *)
Theorem C2_check_mode_seed (prof : string) (feats : option (list string))
    (w : world) :
  run_module (mkParams prof feats true) w
  = (Exit (mkResult false (OrigStr "") [] None), w).
Proof. reflexivity. Qed.

(* ================================================================== *)
(** ** C3, C4, C5, C9: reading the state *)

(** C3 (code bug): on exit code 2, stdout
    ["sssd with-sudo with-mkhomedir\n"] and empty stderr,
    [get_authselect_state] splits the features at every non-word
    character, the hyphens included, and returns the four names [with],
    [sudo], [with], [mkhomedir] instead of [with-sudo] and
    [with-mkhomedir]. *)
Theorem C3_features_split_at_hyphens (l : list (list string)) :
  fst (get_authselect_state
         (mkWorld (2, "sssd with-sudo with-mkhomedir" ++ String nl EmptyString, "") l))
  = RDict (mkStateDict (Some "sssd")
             (Some ["with"; "sudo"; "with"; "mkhomedir"]) "OK").
Proof. reflexivity. Qed.

(** C4 (code bug): on exit code 2, empty stdout and empty stderr the
    regular expression does not match and [get_authselect_state] raises
    (the [AttributeError] of [None.group]) instead of failing with a
    diagnostic; [run_module] ends with the same uncaught exception. *)
Theorem C4_unparseable_output_crashes (l : list (list string)) :
  fst (get_authselect_state (mkWorld (2, "", "") l)) = RCrash
  /\ fst (run_module (mkParams "sssd" None false) (mkWorld (2, "", "") l))
     = Crash.
Proof. split; reflexivity. Qed.

(** C5: on exit code 2 with stdout exactly
    ["No existing configuration detected.\n"], whatever stderr holds,
    [get_authselect_state] returns the unconfigured dict, with profile and
    features both [None]. *)
Theorem C5_unconfigured_detected (err : string) (l : list (list string)) :
  fst (get_authselect_state (mkWorld (2, unconfigured_literal, err) l))
  = RDict (mkStateDict None None "No existing configuration detected.").
Proof. reflexivity. Qed.

(** C9 (code bug): on exit code 2, empty stderr and stdout ["sssd \n"]
    (a profile followed only by separators) [get_authselect_state]
    returns the feature list [[""]], which holds one empty feature name,
    instead of an empty feature set. *)
Theorem C9_empty_remainder_gives_empty_name (l : list (list string)) :
  fst (get_authselect_state
         (mkWorld (2, "sssd " ++ String nl EmptyString, "") l))
  = RDict (mkStateDict (Some "sssd") (Some [""]) "OK").
Proof. reflexivity. Qed.

(* ================================================================== *)
(** ** C6: running twice *)

(** C6: running [run_module] twice with the same parameters, the second
    run on the world the first one left, gives the same outcome both
    times and leaves the configuration as it was, and the result dict of
    the second run (when there is one) has [changed = false]. *)
Theorem C6_run_module_twice (p : params) (w : world) :
  let '(o1, w1) := run_module p w in
  let '(o2, w2) := run_module p w1 in
  o2 = o1
  /\ query_answer w2 = query_answer w
  /\ match o2 with
     | Exit r | Fail _ r => changed r = false
     | _ => True
     end.
Proof.
  pose proof (run_module_world p w) as Hw1.
  destruct (run_module p w) as [o1 w1] eqn:E1.
  pose proof (run_module_world p w1) as Hw2.
  pose proof (run_module_outcome_answer p w1 w) as Ho.
  pose proof (run_module_changed_false p w1) as Hc.
  destruct (run_module p w1) as [o2 w2] eqn:E2.
  simpl in *. subst w1 w2. simpl in *.
  rewrite E1 in Ho; simpl in Ho.
  split; [apply Ho; reflexivity | split; [reflexivity | exact Hc]].
Qed.

(* ================================================================== *)
(** ** C7: failing state query *)

Definition read_failure_msg (err : string) : string :=
  "Failed to execute authselect command with '" ++ err ++ "'.".

(** C7: when the state query exits with a code other than 2, or with 2,
    a non-empty stderr and stdout other than the unconfigured message,
    [get_authselect_state] fails with that exit code and the tool's stderr
    verbatim (also inside the message), and [run_module] ends with that
    failure having run nothing but the state query. *)
Theorem C7_query_failure_verbatim (p : params) (w : world)
    (rc : Z) (out err : string)
    (Hcheck : check_mode p = false)
    (Hans : query_answer w = (rc, out, err))
    (Hcase : rc <> 2 \/ (rc = 2 /\ err <> "" /\ out <> unconfigured_literal)) :
  fst (get_authselect_state w) = RFail rc err (read_failure_msg err)
  /\ run_module p w
     = (FailRead rc err (read_failure_msg err),
        mkWorld (rc, out, err) (ran w ++ [query_argv])).
Proof.
  destruct w as [a l]; simpl in Hans; subst a.
  assert (Hb1 : (rc =? 2) && String.eqb out unconfigured_literal = false).
  { destruct Hcase as [H | (-> & _ & H)].
    - apply Z.eqb_neq in H; rewrite H; reflexivity.
    - apply String.eqb_neq in H; rewrite H, andb_false_r; reflexivity. }
  assert (Hb2 : (rc =? 2) && String.eqb err "" = false).
  { destruct Hcase as [H | (-> & H & _)].
    - apply Z.eqb_neq in H; rewrite H; reflexivity.
    - apply String.eqb_neq in H; rewrite H, andb_false_r; reflexivity. }
  unfold run_module, get_authselect_state, run_command; simpl.
  rewrite Hcheck, Hb1, Hb2. split; reflexivity.
Qed.

Lemma C7_query_failure_verbatim_witness :
  fst (get_authselect_state (mkWorld (1, "", "permission denied") []))
  = RFail 1 "permission denied" (read_failure_msg "permission denied")
  /\ run_module (mkParams "sssd" None false) (mkWorld (1, "", "permission denied") [])
     = (FailRead 1 "permission denied" (read_failure_msg "permission denied"),
        mkWorld (1, "", "permission denied") ([] ++ [query_argv])).
Proof.
  apply (C7_query_failure_verbatim (mkParams "sssd" None false)
           (mkWorld (1, "", "permission denied") []) 1 "" "permission denied").
  - reflexivity.
  - reflexivity.
  - left; discriminate.
Defined.

(* ================================================================== *)
(** ** C8: the reported original state *)

Definition w_unconfigured : world := mkWorld (2, unconfigured_literal, "") [].

(** C8 (counterexample): outside check mode on the [sssd] system, the
    returned [original_profile] is the whole dict read by
    [get_authselect_state], not the profile name ["sssd"]; in check mode
    on an unconfigured system it is the empty string. *)
Lemma C8_original_profile_cex :
  match fst (run_module (mkParams "sssd" None false) w_sssd) with
  | Exit r =>
      original_profile r
      = OrigState (mkStateDict (Some "sssd") (Some ["with"; "sudo"]) "OK")
      /\ original_profile r <> OrigStr "sssd"
  | _ => False
  end
  /\ match fst (run_module (mkParams "sssd" None true) w_unconfigured) with
     | Exit r => original_profile r = OrigStr ""
     | _ => False
     end.
Proof. split; simpl; [split; [reflexivity | discriminate] | reflexivity]. Qed.

(** C8 (amended): in every successful result outside check mode,
    [original_profile] holds the snapshot exactly as
    [get_authselect_state] read it (profile and feature list, both [None]
    when the profile is absent), and the [features] field is the empty
    list; in check mode nothing is read and [original_profile] is the
    empty string. *)
Theorem C8_original_profile_snapshot (p : params) (w : world) :
  match check_mode p, fst (run_module p w), fst (get_authselect_state w) with
  | true, Exit r, _ => original_profile r = OrigStr "" /\ features r = []
  | false, Exit r, RDict d =>
      original_profile r = OrigState d /\ features r = []
      /\ (sd_profile d = None -> sd_features d = None)
  | false, Exit _, _ => False
  | _, _, _ => True
  end.
Proof.
  destruct w as [[[rc o] e] l].
  destruct (check_mode p) eqn:Hc;
    unfold run_module, get_authselect_state, run_command; rewrite Hc; simpl;
    [split; reflexivity|].
  branches; simpl; auto; repeat split; discriminate.
Qed.

(* ================================================================== *)
(** ** C10: the [fail me] profile *)

(** C10: outside check mode, once the state has been read, a request for
    the profile ["fail me"] always ends in [fail_json] with the message
    ["You requested this to fail"], whatever the system's configuration. *)
Theorem C10_fail_me (p : params) (w : world) (d : state_dict)
    (Hcheck : check_mode p = false)
    (Hprof : p_profile p = "fail me")
    (Hread : fst (get_authselect_state w) = RDict d) :
  fst (run_module p w)
  = Fail "You requested this to fail"
      (mkResult false (OrigState d) [] (Some "fail me")).
Proof.
  unfold run_module. rewrite Hcheck.
  destruct (get_authselect_state w) as [st w1]; simpl in Hread; subst st.
  rewrite Hprof; reflexivity.
Qed.

Lemma C10_fail_me_witness :
  fst (run_module (mkParams "fail me" None false) w_sssd)
  = Fail "You requested this to fail"
      (mkResult false
         (OrigState (mkStateDict (Some "sssd") (Some ["with"; "sudo"]) "OK"))
         [] (Some "fail me")).
Proof.
  apply (C10_fail_me (mkParams "fail me" None false) w_sssd
           (mkStateDict (Some "sssd") (Some ["with"; "sudo"]) "OK")).
  - reflexivity.
  - reflexivity.
  - reflexivity.
Defined.

(* ================================================================== *)
(** ** The matcher and the splitter *)

Section MatcherFacts.
Local Open Scope list_scope.
Context {A : Type}.

(** What a successful greedy [cls*] has consumed: a prefix made of
    [cls] characters, after which the continuation succeeded. *)
Lemma star_some (cls : ascii -> bool) (acc s : list ascii)
    (k : list ascii -> list ascii -> option A) (r : A) :
  Re.star cls acc s k = Some r ->
  exists xs rest, s = xs ++ rest /\ forallb cls xs = true
                  /\ k (rev acc ++ xs) rest = Some r.
Proof.
  revert acc. induction s as [|x s IH]; intros acc H; simpl in H.
  - exists [], []. rewrite !app_nil_r. auto.
  - destruct (cls x) eqn:Hx.
    + destruct (Re.star cls (x :: acc) s k) as [r'|] eqn:E.
      * injection H as <-. destruct (IH _ E) as (xs & rest & -> & Hxs & Hk).
        exists (x :: xs), rest. simpl. rewrite Hx, Hxs.
        simpl in Hk. rewrite <- app_assoc in Hk. auto.
      * exists [], (x :: s). rewrite !app_nil_r. auto.
    + exists [], (x :: s). rewrite !app_nil_r. auto.
Qed.

(** A greedy [cls*] in front of a [cls] run followed by a non-[cls]
    character succeeds when the continuation succeeds at the end of the
    run. *)
Lemma star_run (cls : ascii -> bool) (acc xs : list ascii) (y : ascii)
    (rest : list ascii) (k : list ascii -> list ascii -> option A) (r : A) :
  forallb cls xs = true -> cls y = false ->
  k (rev acc ++ xs) (y :: rest) = Some r ->
  Re.star cls acc (xs ++ y :: rest) k = Some r.
Proof.
  revert acc. induction xs as [|x xs IH]; intros acc Hxs Hy Hk; simpl.
  - rewrite Hy. rewrite app_nil_r in Hk. exact Hk.
  - simpl in Hxs. apply andb_prop in Hxs as [Hx Hxs]. rewrite Hx.
    rewrite (IH (x :: acc)); [reflexivity | exact Hxs | exact Hy |].
    simpl. rewrite <- app_assoc. exact Hk.
Qed.

(** A greedy [cls*] fails when the continuation fails at every point of
    the input. *)
Lemma star_none (cls : ascii -> bool) (acc s : list ascii)
    (k : list ascii -> list ascii -> option A) :
  (forall xs rest, s = xs ++ rest -> k (rev acc ++ xs) rest = None) ->
  Re.star cls acc s k = None.
Proof.
  revert acc. induction s as [|x s IH]; intros acc H; simpl.
  - rewrite <- (app_nil_r (rev acc)). apply H. reflexivity.
  - assert (H0 : k (rev acc) (x :: s) = None).
    { rewrite <- (app_nil_r (rev acc)). apply H. reflexivity. }
    destruct (cls x); [|exact H0].
    rewrite IH; [exact H0|].
    intros xs rest ->. simpl. rewrite <- app_assoc. apply (H (x :: xs)).
    reflexivity.
Qed.

End MatcherFacts.

Section SplitFacts.
Local Open Scope list_scope.

(** A successful [re.match] of the state pattern: the profile group is a
    non-empty run of word characters at the start of the input, followed
    by a non-word character. *)
Lemma match_state_line_shape (s p f : list ascii) :
  Re.match_state_line s = Some (p, f) ->
  p <> [] /\ forallb is_word p = true
  /\ exists c rest, s = p ++ c :: rest /\ is_nonword c = true.
Proof.
  unfold Re.match_state_line, Re.plus.
  destruct s as [|x s]; [discriminate|].
  destruct (is_word x) eqn:Hx; [|discriminate]. intros H.
  apply star_some in H as (xs & r1 & -> & Hxs & H).
  destruct r1 as [|c r1]; [discriminate|].
  destruct (is_nonword c) eqn:Hc; [|discriminate].
  apply star_some in H as (ys & r2 & _ & _ & H).
  apply star_some in H as (zs & r3 & _ & _ & H).
  destruct (Re.dollar r3); [|discriminate].
  injection H as <- _. simpl.
  split; [discriminate|]. rewrite Hx, Hxs. split; [reflexivity|].
  exists c, r1. auto.
Qed.

(** Every piece produced by the splitter is made of word characters. *)
Lemma split_nonword_aux_words (s cur : list ascii) (b : bool) :
  forallb is_word cur = true ->
  Forall (fun w => forallb is_word w = true) (Re.split_nonword_aux cur b s).
Proof.
  revert cur b. induction s as [|x s IH]; intros cur b Hcur; simpl.
  - constructor; [|constructor].
    apply forallb_forall. intros c Hc. apply in_rev in Hc.
    exact (proj1 (forallb_forall _ _) Hcur c Hc).
  - destruct (is_word x) eqn:Hx.
    + apply IH. simpl. rewrite Hx, Hcur. reflexivity.
    + destruct b; [apply IH; exact Hcur|].
      constructor; [|apply IH; reflexivity].
      apply forallb_forall. intros c Hc. apply in_rev in Hc.
      exact (proj1 (forallb_forall _ _) Hcur c Hc).
Qed.

(** The splitter never returns an empty list. *)
Lemma split_nonword_aux_nonempty (s cur : list ascii) (b : bool) :
  Re.split_nonword_aux cur b s <> [].
Proof.
  revert cur b. induction s as [|x s IH]; intros cur b; simpl;
    [discriminate|].
  destruct (is_word x); [apply IH|]. destruct b; [apply IH | discriminate].
Qed.

(** The pieces, put back together, are exactly the word characters of
    the input. *)
Lemma split_nonword_aux_concat (s cur : list ascii) (b : bool) :
  List.concat (Re.split_nonword_aux cur b s) = rev cur ++ filter is_word s.
Proof.
  revert cur b. induction s as [|x s IH]; intros cur b; simpl.
  - rewrite !app_nil_r. reflexivity.
  - destruct (is_word x).
    + rewrite IH. simpl. rewrite <- app_assoc. reflexivity.
    + destruct b; simpl; rewrite IH; reflexivity.
Qed.

(** On a word run the splitter only extends the current piece. *)
Lemma split_nonword_aux_word_run (w rest cur : list ascii) :
  forallb is_word w = true ->
  Re.split_nonword_aux cur false (w ++ rest)
  = Re.split_nonword_aux (rev w ++ cur) false rest.
Proof.
  revert cur. induction w as [|x w IH]; intros cur Hw; [reflexivity|].
  simpl in Hw. apply andb_prop in Hw as [Hx Hw]. simpl. rewrite Hx.
  rewrite IH by exact Hw. simpl. rewrite <- app_assoc. reflexivity.
Qed.

(** After a separator, a word character starts the next piece exactly as
    it would outside a separator. *)
Lemma split_nonword_aux_sep_word (x : ascii) (s cur : list ascii) :
  is_word x = true ->
  Re.split_nonword_aux cur true (x :: s) = Re.split_nonword_aux cur false (x :: s).
Proof. intros Hx. simpl. rewrite Hx. reflexivity. Qed.

End SplitFacts.

(** The space character, the separator [authselect current --raw] prints
    between the profile and each feature. *)
Definition sp : ascii := ascii_of_nat 32.

(** Feature names joined by single spaces, as [authselect] prints them. *)
Fixpoint join_sp (ws : list (list ascii)) : list ascii :=
  match ws with
  | [] => []
  | [w] => w
  | w :: ws' => (w ++ sp :: join_sp ws')%list
  end.

(** A feature name as the splitter can give it back: non-empty, word
    characters only. *)
Definition word_name (w : list ascii) : Prop := w <> [] /\ forallb is_word w = true.

Section JoinFacts.
Local Open Scope list_scope.

Lemma join_sp_head (w : list ascii) (ws : list (list ascii)) :
  w <> [] -> exists x t, join_sp (w :: ws) = x :: t /\ hd sp w = x.
Proof.
  destruct w as [|x w]; [congruence|]. intros _.
  destruct ws; simpl; eauto.
Qed.

(** Every character of a joined feature line is a word character or the
    space. *)
Lemma join_sp_chars (ws : list (list ascii)) :
  Forall word_name ws ->
  forallb (fun c => is_word c || Ascii.eqb c sp) (join_sp ws) = true.
Proof.
  induction ws as [|w ws IH]; intros H; [reflexivity|].
  inversion H as [|? ? [_ Hw] Hws]; subst.
  assert (Hw' : forallb (fun c => is_word c || Ascii.eqb c sp) w = true).
  { apply forallb_forall. intros c Hc.
    rewrite (proj1 (forallb_forall _ _) Hw c Hc). reflexivity. }
  destruct ws as [|w2 ws]; [exact Hw'|].
  change (join_sp (w :: w2 :: ws)) with (w ++ sp :: join_sp (w2 :: ws)).
  rewrite forallb_app, Hw'. cbn [forallb andb].
  rewrite (IH Hws). reflexivity.
Qed.

(** Splitting a joined feature line gives the feature names back. *)
Lemma split_join_sp (ws : list (list ascii)) :
  ws <> [] -> Forall word_name ws -> Re.split_nonword (join_sp ws) = ws.
Proof.
  unfold Re.split_nonword.
  induction ws as [|w ws IH]; intros Hne H; [congruence|].
  inversion H as [|? ? [Hwne Hw] Hws]; subst.
  destruct ws as [|w2 ws].
  - simpl. rewrite <- (app_nil_r w) at 1.
    rewrite split_nonword_aux_word_run by exact Hw.
    simpl. rewrite app_nil_r, rev_involutive. reflexivity.
  - change (join_sp (w :: w2 :: ws)) with (w ++ sp :: join_sp (w2 :: ws)).
    rewrite split_nonword_aux_word_run by exact Hw.
    cbn [Re.split_nonword_aux].
    replace (is_word sp) with false by reflexivity. cbv beta iota.
    rewrite app_nil_r, rev_involutive. f_equal.
    inversion Hws as [|? ? [Hw2ne Hw2] _]; subst.
    destruct (join_sp_head w2 ws Hw2ne) as (y & t & Ej & Ey).
    rewrite Ej, split_nonword_aux_sep_word, <- Ej.
    + apply IH; [discriminate | exact Hws].
    + destruct w2 as [|z w2]; [congruence|]. simpl in Ey, Hw2. subst z.
      apply andb_prop in Hw2 as [Hy _]. exact Hy.
Qed.

End JoinFacts.

Section ReadFacts.
Local Open Scope list_scope.

(** Which inputs make [get_authselect_state] return a dict. *)
Lemma get_state_dict_inv (w : world) (d : state_dict) :
  fst (get_authselect_state w) = RDict d ->
  exists out err, query_answer w = (2%Z, out, err)
  /\ ((out = unconfigured_literal
       /\ d = mkStateDict None None (rstrip_nlcr out))
      \/ (out <> unconfigured_literal /\ err = ""%string
          /\ exists p f,
               Re.match_state_line (list_ascii_of_string out) = Some (p, f)
               /\ d = mkStateDict (Some (string_of_list_ascii p))
                        (Some (map string_of_list_ascii (Re.split_nonword f)))
                        "OK")).
Proof.
  destruct w as [[[rc out] err] l].
  unfold get_authselect_state, run_command; simpl.
  destruct (rc =? 2)%Z eqn:Hrc; simpl; [|discriminate].
  apply Z.eqb_eq in Hrc; subst rc.
  destruct (String.eqb out unconfigured_literal) eqn:Ho.
  - intros H; injection H as <-. apply String.eqb_eq in Ho.
    exists out, err. split; [reflexivity|]. left. auto.
  - destruct (String.eqb err "") eqn:He; [|discriminate].
    destruct (Re.match_state_line (list_ascii_of_string out)) as [[p f]|] eqn:Hm;
      [|discriminate].
    intros H; injection H as <-.
    apply String.eqb_neq in Ho. apply String.eqb_eq in He.
    exists out, err. split; [reflexivity|]. right. eauto 7.
Qed.

(** A character that is a word character or the space is not a newline. *)
Lemma word_or_sp_is_dot (c : ascii) :
  is_word c || Ascii.eqb c sp = true -> is_dot c = true.
Proof.
  unfold is_dot. destruct (Ascii.eqb c nl) eqn:E; [|reflexivity].
  apply Ascii.eqb_eq in E. subst c. discriminate.
Qed.

(** The state pattern on a line printed as the profile, a space, the
    features joined by spaces and a final newline. *)
Lemma match_state_line_printed (p : list ascii) (ws : list (list ascii)) :
  word_name p -> ws <> [] -> Forall word_name ws ->
  Re.match_state_line (p ++ sp :: join_sp ws ++ [nl]) = Some (p, join_sp ws).
Proof.
  intros [Hpne Hp] Hne Hws.
  destruct ws as [|w ws']; [congruence|].
  destruct (Forall_inv Hws) as [Hwne Hw].
  assert (Hy : exists y t, join_sp (w :: ws') = y :: t /\ is_word y = true).
  { destruct (join_sp_head w ws' Hwne) as (y & t & Ej & Ey).
    exists y, t. split; [exact Ej|].
    destruct w as [|z w]; [congruence|]. simpl in Ey, Hw. subst z.
    apply andb_prop in Hw as [Hz _]. exact Hz. }
  destruct Hy as (y & t & Ej & Hyw).
  pose proof (join_sp_chars _ Hws) as HJ. rewrite Ej in HJ |- *.
  assert (Hdot : forallb is_dot (y :: t) = true).
  { apply forallb_forall. intros c Hc. apply word_or_sp_is_dot.
    exact (proj1 (forallb_forall _ _) HJ c Hc). }
  destruct p as [|x p']; [congruence|].
  simpl in Hp. apply andb_prop in Hp as [Hx Hp'].
  unfold Re.match_state_line, Re.plus. rewrite <- app_comm_cons.
  cbv beta iota. rewrite Hx.
  apply star_run; [exact Hp' | reflexivity |]. cbv beta iota.
  replace (is_nonword sp) with true by reflexivity.
  change ((y :: t) ++ [nl]) with ([] ++ y :: (t ++ [nl])).
  apply star_run; [reflexivity | unfold is_nonword; rewrite Hyw; reflexivity |].
  cbv beta iota. change (y :: t ++ [nl]) with ((y :: t) ++ nl :: []).
  apply star_run; [exact Hdot | reflexivity |]. reflexivity.
Qed.

(** The unconfigured message holds a full stop, so no line made of word
    characters and spaces, followed by a newline, is equal to it. *)
Lemma printed_not_unconfigured (X : list ascii) :
  forallb (fun c => is_word c || Ascii.eqb c sp) X = true ->
  string_of_list_ascii (X ++ [nl]) <> unconfigured_literal.
Proof.
  intros HX E. apply (f_equal list_ascii_of_string) in E.
  rewrite list_ascii_of_string_of_list_ascii in E.
  change (list_ascii_of_string unconfigured_literal)
    with (list_ascii_of_string "No existing configuration detected." ++ [nl])
    in E.
  apply app_inj_tail in E as [-> _]. discriminate HX.
Qed.

End ReadFacts.

(* ================================================================== *)
(** ** Further properties of [get_authselect_state] and [run_module] *)

(** [get_authselect_state] returns a dict only when the query exited
    with code 2; the profile is absent exactly when stdout is the
    unconfigured message, and then the features are absent too. *)
Theorem get_state_dict_exit_2 (w : world) (d : state_dict) :
  fst (get_authselect_state w) = RDict d ->
  fst (fst (query_answer w)) = 2
  /\ (sd_profile d = None <-> snd (fst (query_answer w)) = unconfigured_literal)
  /\ (sd_profile d = None -> sd_features d = None).
Proof.
  intros H. destruct (get_state_dict_inv w d H) as (out & err & -> & Hc).
  simpl. split; [reflexivity|].
  destruct Hc as [(-> & ->) | (Hne & _ & p & f & _ & ->)]; simpl.
  - split; [split; reflexivity | reflexivity].
  - split; [split; [discriminate | intros E; contradiction] | discriminate].
Qed.

Lemma get_state_dict_exit_2_witness :
  fst (get_authselect_state w_sssd)
  = RDict (mkStateDict (Some "sssd") (Some ["with"; "sudo"]) "OK")
  /\ fst (fst (query_answer w_sssd)) = 2
  /\ (sd_profile (mkStateDict (Some "sssd") (Some ["with"; "sudo"]) "OK") = None
      <-> snd (fst (query_answer w_sssd)) = unconfigured_literal)
  /\ (sd_profile (mkStateDict (Some "sssd") (Some ["with"; "sudo"]) "OK") = None
      -> sd_features (mkStateDict (Some "sssd") (Some ["with"; "sudo"]) "OK") = None).
Proof.
  assert (H : fst (get_authselect_state w_sssd)
              = RDict (mkStateDict (Some "sssd") (Some ["with"; "sudo"]) "OK"))
    by reflexivity.
  split; [exact H | apply (get_state_dict_exit_2 w_sssd _ H)].
Defined.

(** A profile read from the tool is a non-empty run of word characters,
    and stdout starts with it followed by a non-word character. *)
Theorem get_state_profile_word_prefix (w : world) (d : state_dict)
    (prof : string) :
  fst (get_authselect_state w) = RDict d -> sd_profile d = Some prof ->
  list_ascii_of_string prof <> []
  /\ forallb is_word (list_ascii_of_string prof) = true
  /\ exists c rest,
       list_ascii_of_string (snd (fst (query_answer w)))
       = (list_ascii_of_string prof ++ c :: rest)%list
       /\ is_nonword c = true.
Proof.
  intros H Hp. destruct (get_state_dict_inv w d H) as (out & err & -> & Hc).
  destruct Hc as [(_ & ->) | (_ & _ & p & f & Hm & ->)]; [discriminate|].
  simpl in Hp. injection Hp as <-. rewrite list_ascii_of_string_of_list_ascii.
  exact (match_state_line_shape _ _ _ Hm).
Qed.

Lemma get_state_profile_word_prefix_witness :
  list_ascii_of_string "sssd" <> []
  /\ forallb is_word (list_ascii_of_string "sssd") = true
  /\ exists c rest,
       list_ascii_of_string (snd (fst (query_answer w_sssd)))
       = (list_ascii_of_string "sssd" ++ c :: rest)%list
       /\ is_nonword c = true.
Proof.
  apply (get_state_profile_word_prefix w_sssd
           (mkStateDict (Some "sssd") (Some ["with"; "sudo"]) "OK") "sssd");
    reflexivity.
Defined.

(** The feature list read from the tool is never empty, and every name in
    it is made of word characters only (an empty name included). *)
Theorem get_state_feature_names_word_only (w : world) (d : state_dict)
    (fs : list string) :
  fst (get_authselect_state w) = RDict d -> sd_features d = Some fs ->
  fs <> [] /\ Forall (fun f => forallb is_word (list_ascii_of_string f) = true) fs.
Proof.
  intros H Hf. destruct (get_state_dict_inv w d H) as (out & err & _ & Hc).
  destruct Hc as [(_ & ->) | (_ & _ & p & f & _ & ->)]; [discriminate|].
  simpl in Hf. injection Hf as <-. split.
  - intros E. apply map_eq_nil in E.
    exact (split_nonword_aux_nonempty f [] false E).
  - apply Forall_map. eapply Forall_impl; [|apply split_nonword_aux_words;
      reflexivity].
    intros a Ha. rewrite list_ascii_of_string_of_list_ascii. exact Ha.
Qed.

Lemma get_state_feature_names_word_only_witness :
  ["with"; "sudo"] <> []
  /\ Forall (fun f => forallb is_word (list_ascii_of_string f) = true)
       ["with"; "sudo"].
Proof.
  apply (get_state_feature_names_word_only w_sssd
           (mkStateDict (Some "sssd") (Some ["with"; "sudo"]) "OK"));
    reflexivity.
Defined.

(** [re.compile(r'\W+').split] keeps every word character, in order, and
    nothing else: its pieces put back together are the word characters
    of the input. *)
Theorem split_nonword_concat (s : list ascii) :
  List.concat (Re.split_nonword s) = filter is_word s.
Proof. apply split_nonword_aux_concat. Qed.

(** Splitting feature names joined by single spaces gives the names back,
    when each name is non-empty and made of word characters. *)
Theorem split_nonword_join_sp (ws : list (list ascii)) :
  ws <> [] -> Forall word_name ws -> Re.split_nonword (join_sp ws) = ws.
Proof. apply split_join_sp. Qed.

Lemma split_nonword_join_sp_witness :
  Re.split_nonword (join_sp [chars "with"; chars "sudo"])
  = [chars "with"; chars "sudo"].
Proof.
  apply split_nonword_join_sp.
  - discriminate.
  - repeat constructor; discriminate.
Defined.

(** A state line as [authselect current --raw] prints it (the profile, a
    space, the feature names joined by spaces, a newline), read with exit
    code 2 and empty stderr, gives back that profile and those feature
    names, when the names are non-empty and made of word characters. *)
Theorem get_state_reads_printed_line (p : list ascii) (ws : list (list ascii))
    (l : list (list string)) :
  word_name p -> ws <> [] -> Forall word_name ws ->
  fst (get_authselect_state
         (mkWorld (2, string_of_list_ascii (p ++ sp :: join_sp ws ++ [nl])%list, "") l))
  = RDict (mkStateDict (Some (string_of_list_ascii p))
             (Some (map string_of_list_ascii ws)) "OK").
Proof.
  intros Hp Hne Hws.
  assert (HX : forallb (fun c => is_word c || Ascii.eqb c sp)
                 (p ++ sp :: join_sp ws)%list = true).
  { rewrite forallb_app. simpl. rewrite (join_sp_chars ws Hws).
    destruct Hp as [_ Hp].
    replace (forallb (fun c => is_word c || Ascii.eqb c sp) p) with true.
    - reflexivity.
    - symmetry. apply forallb_forall. intros c Hc.
      rewrite (proj1 (forallb_forall _ _) Hp c Hc). reflexivity. }
  pose proof (printed_not_unconfigured _ HX) as Hlit.
  rewrite <- app_assoc in Hlit. simpl in Hlit.
  apply String.eqb_neq in Hlit.
  unfold get_authselect_state, run_command. cbn [fst snd query_answer].
  replace ((2 =? 2) && _) with false
    by (rewrite Hlit; reflexivity).
  replace ((2 =? 2) && String.eqb "" "") with true by reflexivity.
  rewrite list_ascii_of_string_of_list_ascii.
  rewrite (match_state_line_printed p ws Hp Hne Hws).
  rewrite (split_join_sp ws Hne Hws). reflexivity.
Qed.

Lemma get_state_reads_printed_line_witness :
  fst (get_authselect_state
         (mkWorld (2, string_of_list_ascii
                        (chars "sssd" ++ sp :: join_sp [chars "with_sudo"; chars "x1"]
                         ++ [nl])%list, "") []))
  = RDict (mkStateDict (Some (string_of_list_ascii (chars "sssd")))
             (Some (map string_of_list_ascii [chars "with_sudo"; chars "x1"])) "OK").
Proof.
  apply get_state_reads_printed_line.
  - split; [discriminate | reflexivity].
  - discriminate.
  - repeat constructor; discriminate.
Defined.

(** On exit code 2 and empty stderr, a stdout made of word characters
    only (the empty stdout included) has no separator for the pattern to
    match, and [get_authselect_state] raises. *)
Theorem get_state_word_only_stdout_crashes (out : string)
    (l : list (list string)) :
  forallb is_word (list_ascii_of_string out) = true ->
  fst (get_authselect_state (mkWorld (2, out, "") l)) = RCrash.
Proof.
  intros Hw.
  assert (Hlit : String.eqb out unconfigured_literal = false).
  { apply String.eqb_neq. intros ->. discriminate Hw. }
  assert (Hm : Re.match_state_line (list_ascii_of_string out) = None).
  { revert Hw. generalize (list_ascii_of_string out) as s. intros s Hw.
    unfold Re.match_state_line, Re.plus at 1.
    destruct s as [|x s]; [reflexivity|].
    simpl in Hw. apply andb_prop in Hw as [Hx Hs]. rewrite Hx.
    apply star_none. intros xs rest ->.
    rewrite forallb_app in Hs. apply andb_prop in Hs as [_ Hr].
    unfold Re.plus. destruct rest as [|c rest]; [reflexivity|].
    simpl in Hr. apply andb_prop in Hr as [Hc _].
    unfold is_nonword. rewrite Hc. reflexivity. }
  unfold get_authselect_state, run_command. cbn [fst snd query_answer].
  rewrite Hlit. replace ((2 =? 2) && false) with false by reflexivity.
  replace ((2 =? 2) && String.eqb "" "") with true by reflexivity.
  rewrite Hm. reflexivity.
Qed.

Lemma get_state_word_only_stdout_crashes_witness :
  fst (get_authselect_state (mkWorld (2, "sssd", "") [])) = RCrash.
Proof. apply get_state_word_only_stdout_crashes. reflexivity. Defined.

(** The [features] parameter is never used: [run_module] behaves the same
    whatever features are requested. *)
Theorem run_module_ignores_features (prof : string) (f1 f2 : option (list string))
    (cm : bool) (w : world) :
  run_module (mkParams prof f1 cm) w = run_module (mkParams prof f2 cm) w.
Proof. reflexivity. Qed.

(** [run_module] fails with a result dict only for the profile
    ["fail me"] outside check mode, after a successful state read, and
    with the message ["You requested this to fail"]. *)
Theorem run_module_fail_only_fail_me (p : params) (w : world) (m : string)
    (r : result) :
  fst (run_module p w) = Fail m r ->
  check_mode p = false /\ p_profile p = "fail me"
  /\ m = "You requested this to fail"
  /\ exists d, fst (get_authselect_state w) = RDict d
               /\ original_profile r = OrigState d.
Proof.
  unfold run_module. destruct (check_mode p); [discriminate|].
  destruct (get_authselect_state w) as [st w1]. simpl.
  destruct st as [d| |]; try discriminate.
  destruct (String.eqb (p_profile p) "fail me") eqn:E; [|discriminate].
  intros H; injection H as <- <-. apply String.eqb_eq in E.
  repeat split; auto. exists d. auto.
Qed.

Lemma run_module_fail_only_fail_me_witness :
  check_mode (mkParams "fail me" None false) = false
  /\ p_profile (mkParams "fail me" None false) = "fail me"
  /\ "You requested this to fail" = "You requested this to fail"
  /\ exists d, fst (get_authselect_state w_sssd) = RDict d
               /\ original_profile
                    (mkResult false
                       (OrigState (mkStateDict (Some "sssd") (Some ["with"; "sudo"]) "OK"))
                       [] (Some "fail me")) = OrigState d.
Proof.
  apply (run_module_fail_only_fail_me (mkParams "fail me" None false) w_sssd).
  reflexivity.
Defined.

(** Outside check mode a failing state read decides the outcome, before
    the requested profile is looked at: a [fail_json] of the read ends
    [run_module] with that failure, and an exception of the read ends it
    with that exception, ["fail me"] included. *)
Theorem run_module_read_failure_first (p : params) (w : world) :
  check_mode p = false ->
  match fst (get_authselect_state w) with
  | RFail rc err msg => fst (run_module p w) = FailRead rc err msg
  | RCrash => fst (run_module p w) = Crash
  | RDict _ => True
  end.
Proof.
  intros Hc. unfold run_module. rewrite Hc.
  destruct (get_authselect_state w) as [[d|rc err msg|] w1]; reflexivity.
Qed.

Lemma run_module_read_failure_first_witness :
  fst (run_module (mkParams "fail me" None false) (mkWorld (1, "", "denied") []))
  = FailRead 1 "denied" "Failed to execute authselect command with 'denied'.".
Proof.
  exact (run_module_read_failure_first (mkParams "fail me" None false)
           (mkWorld (1, "", "denied") []) eq_refl).
Defined.
